(** * SenateElection: the accounting core of the senate-election audit

    A shallow embedding of [aus_senate_audit/senate_election.py].  The class
    [SenateElection] keeps the ballots sampled so far (a [set] of ballot
    types, a [Counter] of weights per type and a running total) next to the
    election's metadata.  Python integers are unbounded, hence [Z]; a [set]
    is a [gset], the [Counter] a [gmap] into [Z] read through
    [Counter.getitem]; [None] or a [str] is an [option string].  A ballot
    type is any hashable value (a type with decidable equality that is
    countable): the class never looks inside one.  Methods live in a small
    state-and-exception monad over the object's fields, since [add_ballot]
    mutates [self] and the two abstract methods raise. *)

From stdpp Require Import gmap strings list fin_maps.

Local Open Scope Z_scope.

(** ** [collections.Counter], as far as the class uses it *)

Module Counter.
Section counter.
Context {K : Type} `{Countable K}.

(** [Counter()] *)
Definition empty : gmap K Z := ∅.

(** [c[k]]: [dict.__getitem__], with [Counter.__missing__] answering [0]
    for a key that is not stored.  The key is not stored by the read. *)
Definition getitem (c : gmap K Z) (k : K) : Z :=
  match c !! k with
  | Some v => v
  | None => 0
  end.

(** [c[k] = v] *)
Definition setitem (c : gmap K Z) (k : K) (v : Z) : gmap K Z := <[k := v]> c.

(** [c[k] += w], which Python runs as [c[k] = c[k] + w]. *)
Definition iadd (c : gmap K Z) (k : K) (w : Z) : gmap K Z :=
  setitem c k (getitem c k + w).

(** [sum(c.values())] *)
Definition total (c : gmap K Z) : Z := map_fold (λ _ v acc, v + acc) 0 c.

End counter.
End Counter.

(** ** Exceptions and results *)

Inductive exn : Type := NotImplementedError.

Inductive result (A : Type) : Type :=
| Return (a : A)
| Raise (e : exn).
Arguments Return {A} a.
Arguments Raise {A} e.

(** The class object: its only class-level attribute is [TYPE]. *)
Record class : Type := Class_ { TYPE : option string }.

(** [class SenateElection(object): TYPE = None] *)
Definition SenateElection_class : class := {| TYPE := None |}.

Section senate_election.
Context {Ballot : Type} `{Countable Ballot}.
Context {Candidate CandidateId : Type}.

(** The instance attributes set by [__init__]. *)
Record SenateElection : Type := mkSenateElection {
  _n : Z;
  _m : Z;
  _seats : Z;
  _ballots_drawn : Z;
  _ballots : gset Ballot;
  _ballot_weights : gmap Ballot Z;
  _candidates : list Candidate;
  _candidate_ids : list CandidateId;
  _election_id : option string;
  _type : option string
}.

(** Attribute assignments [self._ballots = v] and so on, for the three
    attributes the methods write. *)
Definition set__ballots (v : gset Ballot) (self : SenateElection) : SenateElection :=
  mkSenateElection (_n self) (_m self) (_seats self) (_ballots_drawn self)
    v (_ballot_weights self) (_candidates self) (_candidate_ids self)
    (_election_id self) (_type self).

Definition set__ballot_weights (v : gmap Ballot Z) (self : SenateElection) : SenateElection :=
  mkSenateElection (_n self) (_m self) (_seats self) (_ballots_drawn self)
    (_ballots self) v (_candidates self) (_candidate_ids self)
    (_election_id self) (_type self).

Definition set__ballots_drawn (v : Z) (self : SenateElection) : SenateElection :=
  mkSenateElection (_n self) (_m self) (_seats self) v
    (_ballots self) (_ballot_weights self) (_candidates self) (_candidate_ids self)
    (_election_id self) (_type self).

(** ** The method monad: the object's state is threaded, an exception
    stops the method and leaves the state as it was when raised. *)

Definition M (A : Type) : Type := SenateElection → result A * SenateElection.

Definition ret {A} (a : A) : M A := λ self, (Return a, self).

Definition bind {A B} (m : M A) (k : A → M B) : M B := λ self,
  match m self with
  | (Return a, self') => k a self'
  | (Raise e, self') => (Raise e, self')
  end.

Definition raise {A} (e : exn) : M A := λ self, (Raise e, self).

(** Reading [self.attr]. *)
Definition attr {A} (f : SenateElection → A) : M A := λ self, (Return (f self), self).

(** A statement that updates [self] in place. *)
Definition update (f : SenateElection → SenateElection) : M unit :=
  λ self, (Return tt, f self).

(** The value and the state a method call leaves. *)
Definition eval {A} (m : M A) (self : SenateElection) : result A := (m self).1.
Definition exec {A} (m : M A) (self : SenateElection) : SenateElection := (m self).2.

(** ** The class *)

(** [__init__], run on an instance of the class [cls]. *)
Definition __init__ (cls : class) : SenateElection := {|
  _n := 0;
  _m := 0;
  _seats := 0;
  _ballots_drawn := 0;
  _ballots := ∅;
  _ballot_weights := Counter.empty;
  _candidates := [];
  _candidate_ids := [];
  _election_id := None;
  _type := TYPE cls
|}.

Definition get_num_cast_ballots : M Z := attr _n.

Definition get_num_seats : M Z := attr _seats.

Definition get_num_ballots_drawn : M Z := attr _ballots_drawn.

Definition get_ballots : M (gset Ballot) := attr _ballots.

Definition get_weight_of_ballot (ballot : Ballot) : M Z :=
  bind (attr _ballot_weights) (λ weights, ret (Counter.getitem weights ballot)).

Definition get_candidates : M (list Candidate) := attr _candidates.

Definition get_candidate_ids : M (list CandidateId) := attr _candidate_ids.

Definition get_election_id : M (option string) := attr _election_id.

Definition get_type : M (option string) := attr _type.

(** The three statements of [add_ballot], in the source's order. *)
Definition add_ballot (ballot : Ballot) (weight : Z) : M unit :=
  bind (update (λ self, set__ballots (_ballots self ∪ {[ballot]}) self)) (λ _,
  bind (update (λ self,
          set__ballot_weights (Counter.iadd (_ballot_weights self) ballot weight) self)) (λ _,
  update (λ self, set__ballots_drawn (_ballots_drawn self + weight) self))).

Definition draw_ballots : M unit := raise NotImplementedError.

Definition get_outcome (ballot_weights : gmap Ballot Z) : M (list CandidateId) :=
  raise NotImplementedError.

(** ** Calls made by a client of the object

    Python is dynamically typed: what a call hands back is one of the
    values below. *)

Inductive value : Type :=
| VNone
| VInt (z : Z)
| VStr (s : string)
| VSet (s : gset Ballot)
| VCandidates (l : list Candidate)
| VCandidateIds (l : list CandidateId).

Definition of_optional_str (o : option string) : value :=
  match o with
  | Some s => VStr s
  | None => VNone
  end.

(** The nine accessors, with their arguments. *)
Inductive getter : Type :=
| Get_num_cast_ballots
| Get_num_seats
| Get_num_ballots_drawn
| Get_ballots
| Get_weight_of_ballot (ballot : Ballot)
| Get_candidates
| Get_candidate_ids
| Get_election_id
| Get_type.

(** Every method of the class, with its arguments. *)
Inductive call : Type :=
| Getter (g : getter)
| Add_ballot (ballot : Ballot) (weight : Z)
| Draw_ballots
| Get_outcome (ballot_weights : gmap Ballot Z).

Definition fmap_M {A B} (f : A → B) (m : M A) : M B := bind m (λ a, ret (f a)).

Definition call_getter (g : getter) : M value :=
  match g with
  | Get_num_cast_ballots => fmap_M VInt get_num_cast_ballots
  | Get_num_seats => fmap_M VInt get_num_seats
  | Get_num_ballots_drawn => fmap_M VInt get_num_ballots_drawn
  | Get_ballots => fmap_M VSet get_ballots
  | Get_weight_of_ballot ballot => fmap_M VInt (get_weight_of_ballot ballot)
  | Get_candidates => fmap_M VCandidates get_candidates
  | Get_candidate_ids => fmap_M VCandidateIds get_candidate_ids
  | Get_election_id => fmap_M of_optional_str get_election_id
  | Get_type => fmap_M of_optional_str get_type
  end.

Definition invoke (c : call) : M value :=
  match c with
  | Getter g => call_getter g
  | Add_ballot ballot weight => fmap_M (λ _, VNone) (add_ballot ballot weight)
  | Draw_ballots => fmap_M (λ _, VNone) draw_ballots
  | Get_outcome ballot_weights => fmap_M VCandidateIds (get_outcome ballot_weights)
  end.

(** A client runs the calls one after the other on the same object; a call
    that raises is caught by the client, which goes on with the next call.
    [run] gives what each call returned or raised, and the final state. *)
Fixpoint run (cs : list call) (self : SenateElection) : list (result value) * SenateElection :=
  match cs with
  | [] => ([], self)
  | c :: cs' =>
      let (r, self') := invoke c self in
      let (rs, self'') := run cs' self' in
      (r :: rs, self'')
  end.

Definition state_after (cs : list call) (self : SenateElection) : SenateElection :=
  (run cs self).2.

(** The arguments of the [add_ballot] calls of a sequence, in call order. *)
Fixpoint added (cs : list call) : list (Ballot * Z) :=
  match cs with
  | [] => []
  | Add_ballot ballot weight :: cs' => (ballot, weight) :: added cs'
  | _ :: cs' => added cs'
  end.

(** ** Vocabulary of the properties *)

(** The sum of all the weights passed. *)
Definition sum_weights (adds : list (Ballot * Z)) : Z :=
  foldr (λ a acc, a.2 + acc) 0 adds.

(** The sum of the weights passed together with ballot [b]. *)
Definition sum_weights_of (b : Ballot) (adds : list (Ballot * Z)) : Z :=
  foldr (λ a acc, if decide (a.1 = b) then a.2 + acc else acc) 0 adds.

(** The set of the ballots passed. *)
Definition ballots_of (adds : list (Ballot * Z)) : gset Ballot :=
  list_to_set adds.*1.

(** Every [add_ballot] call of the sequence has a strictly positive weight. *)
Definition positive_weights (cs : list call) : Prop :=
  Forall (λ a, 0 < a.2) (added cs).

(** The state invariant of the sampled ballots. *)
Record invariant (self : SenateElection) : Prop := Invariant {
  inv_total : _ballots_drawn self = Counter.total (_ballot_weights self);
  inv_keys : _ballots self = dom (_ballot_weights self);
  inv_positive : map_Forall (λ _ w, 0 < w) (_ballot_weights self)
}.

(** The part of the invariant that does not depend on the sign of the
    weights: the total is the sum of the counter's values and the set of
    ballot types is the set of the counter's keys. *)
Record consistent (self : SenateElection) : Prop := Consistent {
  cons_total : _ballots_drawn self = Counter.total (_ballot_weights self);
  cons_keys : _ballots self = dom (_ballot_weights self)
}.

(** The two methods the base class leaves to its subclasses. *)
Definition is_abstract (c : call) : bool :=
  match c with
  | Draw_ballots | Get_outcome _ => true
  | _ => false
  end.

End senate_election.

(** ** A concrete audit

    Ballot types are tuples of candidate names, as in
    [("A", "B")]; the calls below draw five ballots of one type and three of
    another, with accessor calls and a call of an abstract method in
    between. *)

Definition ballot_AB : list string := ["A"; "B"]%string.
Definition ballot_BA : list string := ["B"; "A"]%string.
Definition ballot_C : list string := ["C"]%string.

Definition sample_calls : list (@call (list string) _ _) :=
  [ Add_ballot ballot_AB 5;
    Getter Get_num_ballots_drawn;
    Draw_ballots;
    Add_ballot ballot_BA 3;
    Getter (Get_weight_of_ballot ballot_C) ].

(** The same draws reported in another order, around other calls. *)
Definition sample_calls_reordered : list (@call (list string) _ _) :=
  [ Getter Get_ballots;
    Add_ballot ballot_BA 3;
    Add_ballot ballot_AB 5;
    Get_outcome ∅ ].

(** * Facts about the counter *)

Section counter_facts.
Context {K : Type} `{Countable K}.
Implicit Types (c : gmap K Z) (k : K) (w : Z).

Lemma Counter_total_empty : Counter.total (Counter.empty : gmap K Z) = 0.
Proof. apply map_fold_empty. Qed.

Lemma Counter_total_insert_fresh c k v :
  c !! k = None → Counter.total (<[k := v]> c) = v + Counter.total c.
Proof.
  intros Hk. unfold Counter.total.
  apply (map_fold_insert_L (λ _ v acc, v + acc)); [|done].
  intros; lia.
Qed.

Lemma Counter_total_iadd c k w :
  Counter.total (Counter.iadd c k w) = Counter.total c + w.
Proof.
  unfold Counter.iadd, Counter.setitem, Counter.getitem.
  destruct (c !! k) as [v|] eqn:Hk.
  - rewrite <- (insert_delete_eq c k (v + w)).
    rewrite <- (insert_delete_id c k v Hk) at 2.
    rewrite !Counter_total_insert_fresh by apply lookup_delete_eq. lia.
  - rewrite Counter_total_insert_fresh by done. lia.
Qed.

Lemma Counter_getitem_empty k : Counter.getitem (Counter.empty : gmap K Z) k = 0.
Proof. unfold Counter.getitem, Counter.empty. by rewrite lookup_empty. Qed.

Lemma Counter_getitem_iadd c k k' w :
  Counter.getitem (Counter.iadd c k w) k' =
  if decide (k = k') then Counter.getitem c k' + w else Counter.getitem c k'.
Proof.
  unfold Counter.iadd, Counter.setitem, Counter.getitem at 1.
  rewrite lookup_insert. case_decide as Hk; [by rewrite Hk|done].
Qed.

Lemma Counter_dom_iadd c k w : dom (Counter.iadd c k w) = dom c ∪ {[k]}.
Proof. unfold Counter.iadd, Counter.setitem. rewrite dom_insert_L. apply (comm_L (∪)). Qed.

End counter_facts.

(** * Facts about the class *)

Section senate_election_facts.
Context {Ballot : Type} `{Countable Ballot}.
Context {Candidate CandidateId : Type}.

Local Abbreviation object := (@SenateElection Ballot _ _ Candidate CandidateId).
Local Abbreviation method_call := (@call Ballot _ _).
Local Abbreviation accessor := (@getter Ballot).

Implicit Types (self : object) (c : method_call) (cs : list method_call).
Implicit Types (g : accessor) (b ballot : Ballot) (w weight : Z) (cls : class).
Implicit Types (adds : list (Ballot * Z)).

(** ** One call *)

Lemma call_getter_state g self : exec (call_getter g) self = self.
Proof. by destruct g. Qed.

Lemma add_ballot_state ballot weight self :
  exec (add_ballot ballot weight) self =
  mkSenateElection (_n self) (_m self) (_seats self) (_ballots_drawn self + weight)
    (_ballots self ∪ {[ballot]}) (Counter.iadd (_ballot_weights self) ballot weight)
    (_candidates self) (_candidate_ids self) (_election_id self) (_type self).
Proof. reflexivity. Qed.

Lemma invoke_state c self :
  exec (invoke c) self =
  match c with
  | Add_ballot ballot weight => exec (add_ballot ballot weight) self
  | _ => self
  end.
Proof. destruct c as [g| | |]; try reflexivity. apply call_getter_state. Qed.

(** What the accessors of the sampled state return. *)
Lemma eval_get_num_ballots_drawn self :
  eval get_num_ballots_drawn self = Return (_ballots_drawn self).
Proof. reflexivity. Qed.

Lemma eval_get_ballots self : eval get_ballots self = Return (_ballots self).
Proof. reflexivity. Qed.

Lemma eval_get_weight_of_ballot b self :
  eval (get_weight_of_ballot b) self = Return (Counter.getitem (_ballot_weights self) b).
Proof. reflexivity. Qed.

Lemma eval_get_type self : eval get_type self = Return (_type self).
Proof. reflexivity. Qed.

(** The sampled state of a fresh object. *)
Lemma init_ballots_drawn cls : _ballots_drawn (__init__ cls : object) = 0.
Proof. reflexivity. Qed.

Lemma init_ballots cls : _ballots (__init__ cls : object) = ∅.
Proof. reflexivity. Qed.

Lemma init_weight cls b : Counter.getitem (_ballot_weights (__init__ cls : object)) b = 0.
Proof. apply Counter_getitem_empty. Qed.

Lemma init_keys cls : dom (_ballot_weights (__init__ cls : object)) = ∅.
Proof. apply dom_empty_L. Qed.

(** ** A sequence of calls *)

Lemma state_after_nil self : state_after [] self = self.
Proof. reflexivity. Qed.

Lemma state_after_cons c cs self :
  state_after (c :: cs) self = state_after cs (exec (invoke c) self).
Proof.
  unfold state_after, exec. simpl.
  destruct (invoke c self) as [r self']. simpl.
  by destruct (run cs self').
Qed.

Lemma run_length cs self : length (run cs self).1 = length cs.
Proof.
  revert self. induction cs as [|c cs IH]; intros self; [done|].
  simpl. destruct (invoke c self) as [r self'].
  specialize (IH self'). destruct (run cs self'). simpl in *. by rewrite IH.
Qed.

(** The total after a sequence of calls. *)
Lemma state_after_ballots_drawn cs self :
  _ballots_drawn (state_after cs self) = _ballots_drawn self + sum_weights (added cs).
Proof.
  revert self. induction cs as [|c cs IH]; intros self.
  - rewrite state_after_nil. simpl. lia.
  - rewrite state_after_cons, IH, invoke_state.
    destruct c; simpl; lia.
Qed.

(** The weight of a ballot type after a sequence of calls. *)
Lemma state_after_weight cs self b :
  Counter.getitem (_ballot_weights (state_after cs self)) b =
  Counter.getitem (_ballot_weights self) b + sum_weights_of b (added cs).
Proof.
  revert self. induction cs as [|c cs IH]; intros self.
  - rewrite state_after_nil. simpl. lia.
  - rewrite state_after_cons, IH, invoke_state.
    destruct c as [g|b' w| |]; simpl; try lia.
    rewrite Counter_getitem_iadd. repeat case_decide; lia.
Qed.

(** The ballot types after a sequence of calls. *)
Lemma state_after_ballots cs self :
  _ballots (state_after cs self) = _ballots self ∪ ballots_of (added cs).
Proof.
  revert self. induction cs as [|c cs IH]; intros self.
  - rewrite state_after_nil. unfold ballots_of. simpl. by rewrite (right_id_L ∅ (∪)).
  - rewrite state_after_cons, IH, invoke_state.
    destruct c as [g|b' w| |]; try done.
    unfold ballots_of. simpl. by rewrite (assoc_L (∪)).
Qed.

(** The keys of the counter after a sequence of calls. *)
Lemma state_after_keys cs self :
  dom (_ballot_weights (state_after cs self)) =
  dom (_ballot_weights self) ∪ ballots_of (added cs).
Proof.
  revert self. induction cs as [|c cs IH]; intros self.
  - rewrite state_after_nil. unfold ballots_of. simpl. by rewrite (right_id_L ∅ (∪)).
  - rewrite state_after_cons, IH, invoke_state.
    destruct c as [g|b' w| |]; try done.
    unfold ballots_of. simpl. by rewrite Counter_dom_iadd, (assoc_L (∪)).
Qed.

(** No call writes the metadata. *)
Lemma state_after_metadata cs self :
  let self' := state_after cs self in
  _n self' = _n self ∧ _m self' = _m self ∧ _seats self' = _seats self ∧
  _candidates self' = _candidates self ∧ _candidate_ids self' = _candidate_ids self ∧
  _election_id self' = _election_id self ∧ _type self' = _type self.
Proof.
  revert self. induction cs as [|c cs IH]; intros self; [done|].
  simpl. rewrite state_after_cons.
  destruct (IH (exec (invoke c) self)) as (-> & -> & -> & -> & -> & -> & ->).
  rewrite invoke_state. by destruct c.
Qed.

(** A sequence made of [add_ballot] calls only passes exactly its arguments. *)
Lemma added_add_ballots adds :
  added (map (λ a, Add_ballot a.1 a.2) adds : list method_call) = adds.
Proof. induction adds as [|[b w] adds IH]; [done|]. simpl. by rewrite IH. Qed.

Lemma sum_weights_of_unseen b adds : b ∉ adds.*1 → sum_weights_of b adds = 0.
Proof.
  induction adds as [|[b' w] adds IH]; [done|].
  simpl. intros Hb. apply not_elem_of_cons in Hb as [Hne Hb].
  case_decide; [congruence|auto].
Qed.

Lemma sum_weights_nonneg adds : Forall (λ a, 0 < a.2) adds → 0 ≤ sum_weights adds.
Proof. induction 1 as [|[b w] adds Hw _ IH]; simpl in *; lia. Qed.

(** ** The invariant *)

Lemma invariant_init cls : invariant (__init__ cls : object).
Proof.
  split; simpl.
  - symmetry. apply Counter_total_empty.
  - unfold Counter.empty. by rewrite dom_empty_L.
  - apply map_Forall_empty.
Qed.

Lemma invariant_add_ballot ballot weight self :
  0 < weight → invariant self → invariant (exec (add_ballot ballot weight) self).
Proof.
  intros Hw [Htotal Hkeys Hpos]. rewrite add_ballot_state. split; simpl.
  - rewrite Counter_total_iadd. lia.
  - by rewrite Counter_dom_iadd, Hkeys.
  - apply map_Forall_insert_2; [|done].
    unfold Counter.getitem. destruct (_ballot_weights self !! ballot) as [v|] eqn:Hv; [|lia].
    apply Hpos in Hv. lia.
Qed.

Lemma invariant_state_after cs self :
  positive_weights cs → invariant self → invariant (state_after cs self).
Proof.
  unfold positive_weights. revert self.
  induction cs as [|c cs IH]; intros self Hcs Hinv; [done|].
  rewrite state_after_cons, invoke_state. destruct c as [g|b w| |]; simpl in Hcs; auto.
  apply Forall_cons in Hcs as [Hw Hcs]. by apply IH, invariant_add_ballot.
Qed.

(** ** Properties of the class *)

(** C1.  After any sequence of calls on a freshly constructed object whose
    [add_ballot] calls all pass a positive weight (in particular a sequence
    made of such [add_ballot] calls only, see [added_add_ballots]),
    [get_num_ballots_drawn()] returns the sum of all the weights passed and,
    for every ballot type [b], [get_weight_of_ballot(b)] returns the sum of
    the weights of exactly the calls that passed [b]. *)
Theorem add_ballot_accumulates cls cs :
  positive_weights cs →
  let self : object := state_after cs (__init__ cls) in
  eval get_num_ballots_drawn self = Return (sum_weights (added cs)) ∧
  ∀ b, eval (get_weight_of_ballot b) self = Return (sum_weights_of b (added cs)).
Proof.
  intros _ self. subst self. split.
  - by rewrite eval_get_num_ballots_drawn, state_after_ballots_drawn, init_ballots_drawn.
  - intros b. by rewrite eval_get_weight_of_ballot, state_after_weight, init_weight.
Qed.

(** C2.  The state invariant holds after every sequence of calls on a fresh
    object whose [add_ballot] calls all pass a strictly positive weight: the
    total equals the sum of the counter's values, the set of ballot types
    equals the set of the counter's keys, and every stored weight is
    strictly positive. *)
Theorem invariant_preserved cls cs :
  positive_weights cs → invariant (state_after cs (__init__ cls) : object).
Proof. intros Hcs. apply invariant_state_after; [done|]. apply invariant_init. Qed.

(** C3.  After any sequence of calls on a fresh object, [get_ballots()]
    returns exactly the set of the distinct ballots passed to [add_ballot]
    so far; on a fresh object it returns the empty set. *)
Theorem get_ballots_is_added cls cs :
  eval get_ballots (state_after cs (__init__ cls) : object) = Return (ballots_of (added cs)) ∧
  eval get_ballots (__init__ cls : object) = Return ∅.
Proof.
  split; [|done].
  by rewrite eval_get_ballots, state_after_ballots, init_ballots, (left_id_L ∅ (∪)).
Qed.

(** C4.  For a ballot type [b] that was never passed to [add_ballot],
    [get_weight_of_ballot(b)] returns [0]: it does not raise. *)
Theorem weight_of_never_added cls cs b :
  b ∉ (added cs).*1 →
  eval (get_weight_of_ballot b) (state_after cs (__init__ cls) : object) = Return 0.
Proof.
  intros Hb.
  by rewrite eval_get_weight_of_ballot, state_after_weight, init_weight, sum_weights_of_unseen.
Qed.

(** C5.  On the base class [draw_ballots()] and [get_outcome(ballot_weights)]
    raise [NotImplementedError], in every state of the object and for every
    argument; the object is left as it was. *)
Theorem abstract_methods_raise self (ballot_weights : gmap Ballot Z) :
  draw_ballots self = (Raise NotImplementedError, self) ∧
  get_outcome ballot_weights self = (Raise NotImplementedError, self).
Proof. by split. Qed.

(** C6.  The value returned by [get_num_ballots_drawn()] is a non-negative
    integer in every state reached from a fresh object by calls whose
    [add_ballot] weights are positive, and no step decreases it: a call
    other than [add_ballot] leaves it unchanged and an [add_ballot] call
    with a positive weight increases it. *)
Theorem ballots_drawn_monotone cls cs :
  positive_weights cs →
  let self : object := state_after cs (__init__ cls) in
  ∃ n, eval get_num_ballots_drawn self = Return n ∧ 0 ≤ n ∧
    ∀ c, ∃ n', eval get_num_ballots_drawn (exec (invoke c) self) = Return n' ∧
      match c with
      | Add_ballot _ weight => 0 < weight → n < n'
      | _ => n' = n
      end.
Proof.
  intros Hcs self. exists (_ballots_drawn self). split; [done|]. split.
  - subst self. rewrite state_after_ballots_drawn, init_ballots_drawn.
    apply sum_weights_nonneg in Hcs. lia.
  - intros c. exists (_ballots_drawn (exec (invoke c) self)). split; [done|].
    rewrite invoke_state. destruct c; simpl; try done. lia.
Qed.

(** C7.  No getter changes the object, so a getter called twice with only
    getter calls in between (no mutator) returns the same result twice. *)
Theorem getters_are_pure g (gs : list accessor) self :
  exec (call_getter g) self = self ∧
  eval (call_getter g) (state_after (Getter g :: map Getter gs) self) =
  eval (call_getter g) self.
Proof.
  split; [apply call_getter_state|].
  rewrite state_after_cons. simpl. rewrite call_getter_state. f_equal.
  induction gs as [|g' gs IH]; [done|].
  simpl. by rewrite state_after_cons, invoke_state.
Qed.

(** C8.  [add_ballot] does not validate its weight: for every integer
    weight, positive or not, it returns normally, inserts the ballot into
    the set, adds the weight to the ballot's counter entry and adds the
    weight to the total.  After [add_ballot(b, 0)] on a fresh object
    [get_ballots()] contains [b] while [get_weight_of_ballot(b)] and
    [get_num_ballots_drawn()] return [0]. *)
Theorem add_ballot_unvalidated :
  (∀ self ballot weight,
     let self' := exec (add_ballot ballot weight) self in
     eval (add_ballot ballot weight) self = Return () ∧
     _ballots self' = _ballots self ∪ {[ballot]} ∧
     _ballot_weights self' !! ballot =
       Some (Counter.getitem (_ballot_weights self) ballot + weight) ∧
     eval (get_weight_of_ballot ballot) self' =
       Return (Counter.getitem (_ballot_weights self) ballot + weight) ∧
     _ballots_drawn self' = _ballots_drawn self + weight) ∧
  (∀ cls b,
     let self : object := exec (add_ballot b 0) (__init__ cls) in
     (∃ s, eval get_ballots self = Return s ∧ b ∈ s) ∧
     eval (get_weight_of_ballot b) self = Return 0 ∧
     eval get_num_ballots_drawn self = Return 0).
Proof.
  split.
  - intros self ballot weight self'. subst self'.
    rewrite eval_get_weight_of_ballot, add_ballot_state. cbn [_ballots _ballot_weights _ballots_drawn].
    rewrite Counter_getitem_iadd, decide_True by done.
    unfold Counter.iadd, Counter.setitem. by rewrite lookup_insert_eq.
  - intros cls b self. subst self.
    rewrite eval_get_weight_of_ballot, eval_get_ballots, add_ballot_state.
    cbn [_ballots _ballot_weights _ballots_drawn]. split; [|split].
    + eexists. split; [done|]. by apply elem_of_union_r, elem_of_singleton_2.
    + by rewrite Counter_getitem_iadd, decide_True, init_weight.
    + done.
Qed.

(** C9.  [get_weight_of_ballot] leaves the object as it was.  Asked for a
    ballot type that was never added, it does not store the key in the
    counter, the type stays out of the set of drawn ballots, and the keys
    of the counter are still the drawn ballot types. *)
Theorem get_weight_of_ballot_frame cls cs b :
  b ∉ (added cs).*1 →
  let self : object := state_after cs (__init__ cls) in
  let self' := exec (get_weight_of_ballot b) self in
  self' = self ∧
  _ballot_weights self' !! b = None ∧
  (b ∉ _ballots self') ∧
  _ballots self' = dom (_ballot_weights self').
Proof.
  intros Hb self self'.
  assert (Hself : self' = self) by done. rewrite Hself. subst self.
  assert (Hout : b ∉ ballots_of (added cs)).
  { unfold ballots_of. by rewrite elem_of_list_to_set. }
  split; [done|]. split; [|split].
  - apply not_elem_of_dom. by rewrite state_after_keys, init_keys, (left_id_L ∅ (∪)).
  - by rewrite state_after_ballots, init_ballots, (left_id_L ∅ (∪)).
  - by rewrite state_after_ballots, state_after_keys, init_ballots, init_keys.
Qed.

(** C10.  The base class has [TYPE = None], so [get_type()] on a fresh
    object of the base class returns [None]; for any class the tag is the
    class attribute as copied by [__init__], and no call changes it. *)
Theorem get_type_is_class_TYPE :
  eval get_type (__init__ SenateElection_class : object) = Return None ∧
  ∀ cls cs, _type (__init__ cls : object) = TYPE cls ∧
    eval get_type (state_after cs (__init__ cls) : object) = Return (TYPE cls).
Proof.
  split; [done|]. intros cls cs. split; [done|]. rewrite eval_get_type.
  by destruct (state_after_metadata cs (__init__ cls : object)) as (_ & _ & _ & _ & _ & _ & ->).
Qed.

End senate_election_facts.

(** * A concrete audit: the ballots are tuples of candidate names *)

Section example_facts.

Local Abbreviation object := (@SenateElection (list string) _ _ string string).

Example sample_total :
  eval get_num_ballots_drawn (state_after sample_calls (__init__ SenateElection_class) : object)
  = Return 8.
Proof. reflexivity. Qed.

Example sample_weights :
  let self : object := state_after sample_calls (__init__ SenateElection_class) in
  eval (get_weight_of_ballot ballot_AB) self = Return 5 ∧
  eval (get_weight_of_ballot ballot_BA) self = Return 3 ∧
  eval (get_weight_of_ballot ballot_C) self = Return 0.
Proof. by vm_compute. Qed.

Example sample_ballots :
  eval get_ballots (state_after sample_calls (__init__ SenateElection_class) : object)
  = Return {[ballot_AB; ballot_BA]}.
Proof. by vm_compute. Qed.

Lemma sample_calls_positive : positive_weights sample_calls.
Proof. unfold positive_weights. simpl. repeat constructor. Defined.

Lemma ballot_C_never_added : ballot_C ∉ (added sample_calls).*1.
Proof.
  simpl. intros Hin.
  repeat (apply elem_of_cons in Hin as [Hin|Hin]; [discriminate Hin|]).
  by apply elem_of_nil in Hin.
Defined.

(** [add_ballot_accumulates] on the sample calls. *)
Lemma add_ballot_accumulates_sample :
  positive_weights sample_calls ∧
  let self : object := state_after sample_calls (__init__ SenateElection_class) in
  eval get_num_ballots_drawn self = Return (sum_weights (added sample_calls)) ∧
  ∀ b, eval (get_weight_of_ballot b) self = Return (sum_weights_of b (added sample_calls)).
Proof.
  split; [apply sample_calls_positive|].
  apply (add_ballot_accumulates SenateElection_class sample_calls sample_calls_positive).
Defined.

(** [invariant_preserved] on the sample calls. *)
Lemma invariant_preserved_sample :
  positive_weights sample_calls ∧
  invariant (state_after sample_calls (__init__ SenateElection_class) : object).
Proof.
  split; [apply sample_calls_positive|].
  apply (invariant_preserved SenateElection_class sample_calls sample_calls_positive).
Defined.

(** [weight_of_never_added] on the sample calls and a ballot they never pass. *)
Lemma weight_of_never_added_sample :
  (ballot_C ∉ (added sample_calls).*1) ∧
  eval (get_weight_of_ballot ballot_C)
    (state_after sample_calls (__init__ SenateElection_class) : object) = Return 0.
Proof.
  split; [apply ballot_C_never_added|].
  apply (weight_of_never_added SenateElection_class sample_calls ballot_C ballot_C_never_added).
Defined.

(** [ballots_drawn_monotone] on the sample calls. *)
Lemma ballots_drawn_monotone_sample :
  positive_weights sample_calls ∧
  let self : object := state_after sample_calls (__init__ SenateElection_class) in
  ∃ n, eval get_num_ballots_drawn self = Return n ∧ 0 ≤ n ∧
    ∀ c, ∃ n', eval get_num_ballots_drawn (exec (invoke c) self) = Return n' ∧
      match c with
      | Add_ballot _ weight => 0 < weight → n < n'
      | _ => n' = n
      end.
Proof.
  split; [apply sample_calls_positive|].
  apply (ballots_drawn_monotone SenateElection_class sample_calls sample_calls_positive).
Defined.

(** [get_weight_of_ballot_frame] on the sample calls and a ballot they never pass. *)
Lemma get_weight_of_ballot_frame_sample :
  (ballot_C ∉ (added sample_calls).*1) ∧
  let self : object := state_after sample_calls (__init__ SenateElection_class) in
  let self' := exec (get_weight_of_ballot ballot_C) self in
  self' = self ∧
  _ballot_weights self' !! ballot_C = None ∧
  (ballot_C ∉ _ballots self') ∧
  _ballots self' = dom (_ballot_weights self').
Proof.
  split; [apply ballot_C_never_added|].
  apply (get_weight_of_ballot_frame SenateElection_class sample_calls ballot_C
           ballot_C_never_added).
Defined.

End example_facts.

(** * Further facts about the counter *)

Section counter_more_facts.
Context {K : Type} `{Countable K}.
Implicit Types (c : gmap K Z) (k : K) (w : Z).

Lemma Counter_lookup_iadd c k k' w :
  Counter.iadd c k w !! k' =
  if decide (k = k') then Some (Counter.getitem c k + w) else c !! k'.
Proof. unfold Counter.iadd, Counter.setitem. apply lookup_insert. Qed.


Lemma Counter_iadd_iadd c k w1 w2 :
  Counter.iadd (Counter.iadd c k w1) k w2 = Counter.iadd c k (w1 + w2).
Proof.
  apply map_eq. intros k'.
  rewrite !Counter_lookup_iadd, !Counter_getitem_iadd.
  repeat case_decide; subst; try done; f_equal; lia.
Qed.

Lemma Counter_iadd_zero c k : is_Some (c !! k) → Counter.iadd c k 0 = c.
Proof.
  intros [v Hv]. unfold Counter.iadd, Counter.setitem, Counter.getitem.
  rewrite Hv, Z.add_0_r. by apply insert_id.
Qed.

Lemma Counter_total_nonneg c : map_Forall (λ _ v, 0 ≤ v) c → 0 ≤ Counter.total c.
Proof.
  induction c as [|k v c Hk IH] using map_ind; intros Hc.
  - unfold Counter.total. by rewrite map_fold_empty.
  - rewrite (Counter_total_insert_fresh c k v Hk).
    apply map_Forall_insert in Hc as [Hv Hc]; [|done]. specialize (IH Hc). lia.
Qed.

Lemma Counter_getitem_le_total c k :
  map_Forall (λ _ v, 0 ≤ v) c → Counter.getitem c k ≤ Counter.total c.
Proof.
  intros Hc. unfold Counter.getitem. destruct (c !! k) as [v|] eqn:Hk.
  - rewrite <- (insert_delete_id c k v Hk).
    rewrite Counter_total_insert_fresh by apply lookup_delete_eq.
    assert (0 ≤ Counter.total (delete k c)); [|lia].
    apply Counter_total_nonneg. intros k' v' Hk'.
    apply lookup_delete_Some in Hk' as [_ Hk']. by apply (Hc k').
  - by apply Counter_total_nonneg.
Qed.

End counter_more_facts.

(** * Further properties of the class *)

Section senate_election_more_facts.
Context {Ballot : Type} `{Countable Ballot}.
Context {Candidate CandidateId : Type}.

Local Abbreviation object := (@SenateElection Ballot _ _ Candidate CandidateId).
Local Abbreviation method_call := (@call Ballot _ _).

Implicit Types (self : object) (c : method_call) (cs : list method_call).
Implicit Types (b ballot : Ballot) (w weight : Z) (cls : class).
Implicit Types (adds : list (Ballot * Z)).

(** ** [add_ballot] on any state *)

(** X1.  From any state of the object, not only a fresh one, a sequence of
    calls adds to the total the sum of the weights passed, adds to each
    ballot type's weight the sum of the weights passed with it, and adds
    the ballots passed to the set. *)
Theorem accumulates_from_any_state cs self :
  let self' := state_after cs self in
  eval get_num_ballots_drawn self' =
    Return (_ballots_drawn self + sum_weights (added cs)) ∧
  (∀ b, eval (get_weight_of_ballot b) self' =
    Return (Counter.getitem (_ballot_weights self) b + sum_weights_of b (added cs))) ∧
  eval get_ballots self' = Return (_ballots self ∪ ballots_of (added cs)).
Proof.
  intros self'. subst self'. split; [|split].
  - by rewrite eval_get_num_ballots_drawn, state_after_ballots_drawn.
  - intros b. by rewrite eval_get_weight_of_ballot, state_after_weight.
  - by rewrite eval_get_ballots, state_after_ballots.
Qed.





Lemma add_ballot_twice b w1 w2 self :
  exec (add_ballot b w2) (exec (add_ballot b w1) self) = exec (add_ballot b (w1 + w2)) self.
Proof.
  rewrite !add_ballot_state. cbn. f_equal.
  - lia.
  - by rewrite <- (assoc_L (∪)), (idemp_L (∪)).
  - apply Counter_iadd_iadd.
Qed.

(** X3.  Two draws of the same ballot type amount to one draw of the summed
    weight: the object ends in the same state. *)
Theorem add_ballot_merges b w1 w2 self :
  exec (add_ballot b w2) (exec (add_ballot b w1) self) = exec (add_ballot b (w1 + w2)) self.
Proof. apply add_ballot_twice. Qed.

(** ** What holds whatever the sign of the weights *)

Lemma consistent_add_ballot b w self :
  consistent self → consistent (exec (add_ballot b w) self).
Proof.
  intros [Htotal Hkeys]. rewrite add_ballot_state. split; cbn.
  - rewrite Counter_total_iadd. lia.
  - by rewrite Counter_dom_iadd, Hkeys.
Qed.

(** X4.  Whatever integer weights are passed, zero and negative ones
    included, after any sequence of calls on a fresh object the total is
    the sum of the counter's values and the set of ballot types is the set
    of the counter's keys. *)
Theorem consistent_for_all_weights cls cs :
  consistent (state_after cs (__init__ cls) : object).
Proof.
  assert (Hinit : consistent (__init__ cls : object)).
  { split; [symmetry; apply Counter_total_empty|symmetry; apply init_keys]. }
  revert Hinit. generalize (__init__ cls : object).
  induction cs as [|c cs IH]; intros self Hself; [done|].
  rewrite state_after_cons, invoke_state. apply IH.
  destruct c; try done. by apply consistent_add_ballot.
Qed.

(** X5.  From a state that satisfies the invariant, [add_ballot(b, w)] keeps
    the invariant exactly when the weight stored for [b] afterwards,
    the old weight plus [w], is strictly positive.  So a zero or negative
    weight on a new ballot type always breaks it. *)
Theorem invariant_add_ballot_iff b w self :
  invariant self →
  invariant (exec (add_ballot b w) self) ↔ 0 < Counter.getitem (_ballot_weights self) b + w.
Proof.
  intros [Htotal Hkeys Hpos]. rewrite add_ballot_state. split.
  - intros [_ _ Hpos']. cbn in Hpos'.
    apply (Hpos' b). unfold Counter.iadd, Counter.setitem. apply lookup_insert_eq.
  - intros Hw. split; cbn.
    + rewrite Counter_total_iadd. lia.
    + by rewrite Counter_dom_iadd, Hkeys.
    + by apply map_Forall_insert_2.
Qed.

(** ** What positive weights give *)

Lemma length_le_sum_weights adds :
  Forall (λ a, 0 < a.2) adds → Z.of_nat (length adds) ≤ sum_weights adds.
Proof. induction 1 as [|[b w] adds Hw _ IH]; simpl in *; lia. Qed.

Lemma size_ballots_of adds : (size (ballots_of adds) ≤ length adds)%nat.
Proof.
  unfold ballots_of. induction adds as [|[b w] adds IH].
  - rewrite fmap_nil, list_to_set_nil, size_empty. done.
  - rewrite fmap_cons, list_to_set_cons, size_union_alt, size_singleton. simpl.
    pose proof (subseteq_size (list_to_set adds.*1 ∖ {[b]}) (list_to_set adds.*1 : gset Ballot)
                  (subseteq_difference_l _ _ _ (reflexivity _))).
    lia.
Qed.

(** X6.  After calls with positive weights on a fresh object, a ballot type
    is in the set [get_ballots()] returns exactly when
    [get_weight_of_ballot] returns a positive weight for it, and that
    weight is between [0] and the total [get_num_ballots_drawn()] returns. *)
Theorem drawn_iff_positive_weight cls cs b :
  positive_weights cs →
  let self : object := state_after cs (__init__ cls) in
  ∃ s n t,
    eval get_ballots self = Return s ∧
    eval (get_weight_of_ballot b) self = Return n ∧
    eval get_num_ballots_drawn self = Return t ∧
    (b ∈ s ↔ 0 < n) ∧ 0 ≤ n ≤ t.
Proof.
  intros Hcs self.
  destruct (invariant_state_after cs (__init__ cls : object) Hcs (invariant_init cls))
    as [Htotal Hkeys Hpos]. fold self in Htotal, Hkeys, Hpos.
  exists (_ballots self), (Counter.getitem (_ballot_weights self) b), (_ballots_drawn self).
  split; [done|]. split; [done|]. split; [done|].
  assert (Hnonneg : map_Forall (λ _ v, 0 ≤ v) (_ballot_weights self)).
  { intros k v Hk. apply Hpos in Hk. lia. }
  pose proof (Counter_getitem_le_total (_ballot_weights self) b Hnonneg) as Hle.
  rewrite Htotal, Hkeys, elem_of_dom. unfold Counter.getitem in *.
  destruct (_ballot_weights self !! b) as [v|] eqn:Hv.
  - apply Hpos in Hv. split; [|lia]. split; [done|by eexists].
  - split; [|lia]. split; [by intros [? ?]|lia].
Qed.

(** X7.  After calls with positive weights on a fresh object, the number of
    distinct ballot types drawn is at most the number of [add_ballot] calls,
    which is at most the total weight drawn. *)
Theorem distinct_types_bounded cls cs :
  positive_weights cs →
  let self : object := state_after cs (__init__ cls) in
  ∃ s t,
    eval get_ballots self = Return s ∧
    eval get_num_ballots_drawn self = Return t ∧
    (size s ≤ length (added cs))%nat ∧ Z.of_nat (length (added cs)) ≤ t.
Proof.
  intros Hcs self. exists (_ballots self), (_ballots_drawn self).
  split; [done|]. split; [done|]. subst self.
  rewrite state_after_ballots, state_after_ballots_drawn, init_ballots, init_ballots_drawn.
  rewrite (left_id_L ∅ (∪)). split; [apply size_ballots_of|].
  apply length_le_sum_weights in Hcs. lia.
Qed.

(** ** What the methods never do *)

(** X8.  No method writes the election's metadata: after any sequence of
    calls, from any state, the accessors of the ballot count, the seats,
    the candidates, their ids, the election id and the type return what
    they returned before, and the candidate count is unchanged.  On an
    object that only [__init__] has set up they return [0], [0], the empty
    lists and [None]. *)
Theorem metadata_never_written cls cs self :
  (let self' := state_after cs self in
   eval get_num_cast_ballots self' = eval get_num_cast_ballots self ∧
   eval get_num_seats self' = eval get_num_seats self ∧
   eval get_candidates self' = eval get_candidates self ∧
   eval get_candidate_ids self' = eval get_candidate_ids self ∧
   eval get_election_id self' = eval get_election_id self ∧
   eval get_type self' = eval get_type self ∧
   _m self' = _m self) ∧
  (let fresh : object := state_after cs (__init__ cls) in
   eval get_num_cast_ballots fresh = Return 0 ∧
   eval get_num_seats fresh = Return 0 ∧
   eval get_candidates fresh = Return [] ∧
   eval get_candidate_ids fresh = Return [] ∧
   eval get_election_id fresh = Return None).
Proof.
  split.
  - intros self'. subst self'.
    destruct (state_after_metadata cs self) as (Hn & Hm & Hs & Hc & Hi & He & Ht).
    unfold eval, get_num_cast_ballots, get_num_seats, get_candidates, get_candidate_ids,
      get_election_id, get_type, attr. cbn [fst].
    by rewrite Hn, Hm, Hs, Hc, Hi, He, Ht.
  - intros fresh. subst fresh.
    destruct (state_after_metadata cs (__init__ cls : object)) as (Hn & _ & Hs & Hc & Hi & He & _).
    unfold eval, get_num_cast_ballots, get_num_seats, get_candidates, get_candidate_ids,
      get_election_id, attr. cbn [fst].
    by rewrite Hn, Hs, Hc, Hi, He.
Qed.

Lemma invoke_result c self :
  if is_abstract c then eval (invoke c) self = Raise NotImplementedError
  else ∃ v, eval (invoke c) self = Return v.
Proof. destruct c as [g| | |]; [destruct g|..]; simpl; by eauto. Qed.

(** X9.  In a run of calls on one object the calls that raise are exactly
    the calls of the two abstract methods, and what they raise is
    [NotImplementedError]; every accessor call and every [add_ballot]
    call returns a value, in whatever state it finds the object. *)
Theorem only_abstract_calls_raise cs self :
  Forall2 (λ c r, if is_abstract c then r = Raise NotImplementedError else ∃ v, r = Return v)
    cs (run cs self).1.
Proof.
  revert self. induction cs as [|c cs IH]; intros self; simpl; [constructor|].
  pose proof (invoke_result c self) as Hc. unfold eval in Hc.
  destruct (invoke c self) as [r self']. specialize (IH self').
  destruct (run cs self') as [rs self'']. simpl in *. by constructor.
Qed.

(** X10.  On an object whose set of ballot types is the set of the counter's
    keys, [add_ballot(b, 0)] changes nothing when [b] was drawn before, and
    changes the object (it records [b]) when it was not. *)
Theorem add_zero_noop_iff b self :
  _ballots self = dom (_ballot_weights self) →
  exec (add_ballot b 0) self = self ↔ b ∈ _ballots self.
Proof.
  intros Hkeys. split.
  - intros Heq. apply (f_equal _ballots) in Heq.
    rewrite add_ballot_state in Heq. cbn in Heq.
    rewrite <- Heq. by apply elem_of_union_r, elem_of_singleton_2.
  - intros Hb. rewrite add_ballot_state.
    assert (Hset : _ballots self ∪ {[b]} = _ballots self).
    { rewrite (comm_L (∪)). by apply subseteq_union_1_L, singleton_subseteq_l. }
    assert (Hmap : Counter.iadd (_ballot_weights self) b 0 = _ballot_weights self).
    { apply Counter_iadd_zero. apply elem_of_dom. by rewrite <- Hkeys. }
    rewrite Hset, Hmap, Z.add_0_r. by destruct self.
Qed.

(** X11.  No call removes a ballot type: over any sequence of calls, with
    any weights, the set of ballot types and the set of the counter's keys
    only grow. *)
Theorem ballots_never_removed cs self :
  _ballots self ⊆ _ballots (state_after cs self) ∧
  dom (_ballot_weights self) ⊆ dom (_ballot_weights (state_after cs self)).
Proof.
  rewrite state_after_ballots, state_after_keys.
  split; apply union_subseteq_l.
Qed.

(** X12.  A negative weight undoes the figures of a draw and not the draw:
    after [add_ballot(b, w)] and [add_ballot(b, -w)] the total and every
    ballot type's weight are what they were, while [b] is in the set of
    drawn ballots and is a key of the counter. *)
Theorem cancelled_draw_stays b w self :
  let self' := exec (add_ballot b (- w)) (exec (add_ballot b w) self) in
  eval get_num_ballots_drawn self' = eval get_num_ballots_drawn self ∧
  (∀ b', eval (get_weight_of_ballot b') self' = eval (get_weight_of_ballot b') self) ∧
  (∃ s, eval get_ballots self' = Return s ∧ b ∈ s) ∧
  is_Some (_ballot_weights self' !! b).
Proof.
  intros self'. subst self'. rewrite add_ballot_twice, Z.add_opp_diag_r.
  rewrite !eval_get_num_ballots_drawn, eval_get_ballots, add_ballot_state.
  cbn [_ballots _ballot_weights _ballots_drawn]. split; [|split; [|split]].
  - by rewrite Z.add_0_r.
  - intros b'. rewrite !eval_get_weight_of_ballot. cbn [_ballot_weights].
    rewrite Counter_getitem_iadd. case_decide; [f_equal; lia|done].
  - eexists. split; [done|]. by apply elem_of_union_r, elem_of_singleton_2.
  - rewrite Counter_lookup_iadd, decide_True by done. by eexists.
Qed.

End senate_election_more_facts.

(** * The concrete audit again *)

Section more_example_facts.

Local Abbreviation object := (@SenateElection (list string) _ _ string string).

Example sample_reordered_state :
  (state_after sample_calls_reordered (__init__ SenateElection_class) : object) =
  state_after sample_calls (__init__ SenateElection_class).
Proof. by vm_compute. Qed.

Example zero_weight_breaks_invariant :
  ¬ invariant (exec (add_ballot ballot_C 0) (__init__ SenateElection_class : object)).
Proof.
  intros [_ _ Hpos]. specialize (Hpos ballot_C 0).
  cut (0 < 0); [lia|]. apply Hpos. by vm_compute.
Qed.



(** [invariant_add_ballot_iff] on a fresh object and a zero weight. *)
Lemma invariant_add_ballot_iff_sample :
  invariant (__init__ SenateElection_class : object) ∧
  (invariant (exec (add_ballot ballot_C 0) (__init__ SenateElection_class : object)) ↔
   0 < Counter.getitem (_ballot_weights (__init__ SenateElection_class : object)) ballot_C + 0).
Proof.
  split; [apply invariant_init|].
  apply (invariant_add_ballot_iff ballot_C 0 (__init__ SenateElection_class : object)
           (invariant_init SenateElection_class)).
Defined.

(** [drawn_iff_positive_weight] on the sample calls. *)
Lemma drawn_iff_positive_weight_sample :
  positive_weights sample_calls ∧
  let self : object := state_after sample_calls (__init__ SenateElection_class) in
  ∃ s n t,
    eval get_ballots self = Return s ∧
    eval (get_weight_of_ballot ballot_AB) self = Return n ∧
    eval get_num_ballots_drawn self = Return t ∧
    (ballot_AB ∈ s ↔ 0 < n) ∧ 0 ≤ n ≤ t.
Proof.
  split; [apply sample_calls_positive|].
  apply (drawn_iff_positive_weight SenateElection_class sample_calls ballot_AB
           sample_calls_positive).
Defined.

(** [distinct_types_bounded] on the sample calls. *)
Lemma distinct_types_bounded_sample :
  positive_weights sample_calls ∧
  let self : object := state_after sample_calls (__init__ SenateElection_class) in
  ∃ s t,
    eval get_ballots self = Return s ∧
    eval get_num_ballots_drawn self = Return t ∧
    (size s ≤ length (added sample_calls))%nat ∧ Z.of_nat (length (added sample_calls)) ≤ t.
Proof.
  split; [apply sample_calls_positive|].
  apply (distinct_types_bounded SenateElection_class sample_calls sample_calls_positive).
Defined.

Lemma sample_state_keys :
  let self : object := state_after sample_calls (__init__ SenateElection_class) in
  _ballots self = dom (_ballot_weights self).
Proof. by vm_compute. Defined.

(** [add_zero_noop_iff] on the state the sample calls leave, for a ballot
    type they drew. *)
Lemma add_zero_noop_iff_sample :
  let self : object := state_after sample_calls (__init__ SenateElection_class) in
  _ballots self = dom (_ballot_weights self) ∧
  (exec (add_ballot ballot_AB 0) self = self ↔ ballot_AB ∈ _ballots self).
Proof.
  split; [apply sample_state_keys|].
  apply (add_zero_noop_iff ballot_AB
           (state_after sample_calls (__init__ SenateElection_class) : object)
           sample_state_keys).
Defined.

End more_example_facts.
